(** * HighlightRenderer: geometry cache and hover hit-testing

    A shallow embedding of [src/components/highlighting/ui/highlight-renderer.jsx].

    Modelling conventions.
    - JavaScript numbers used as CSS pixel coordinates are exact rationals
      ([Q]); the rounding of IEEE doubles, [NaN] and the infinities are not
      part of the model.  Comparisons are the boolean tests [Qle_bool] and
      [Qltb], equality of coordinates is [Qeq] ([==]).
    - JavaScript objects that the component only compares with [!==] or hands
      on (the highlight, DOM elements, DOM ranges, callbacks) are references
      ([ref]); what a reference denotes is looked up in a [World], the
      snapshot of the JS heap and of the browser layout at the time of a call.
    - Calls that leave the component (layout measurements, the
      [onRemoveHighlight] callback) are recorded, in order, in a trace. *)

From Stdlib Require Import QArith Lqa ZArith Lia List String Bool Permutation.
Import ListNotations.

Set Implicit Arguments.

Local Open Scope Q_scope.

(** ** Numbers *)

(** The JS test [x < y] on numbers. *)
Definition Qltb (x y : Q) : bool := negb (Qle_bool y x).

(** ** Data model ([types.js]: only the type declarations are used) *)

(** Object identity: two references are the same object iff they are equal. *)
Definition ref := positive.
Bind Scope positive_scope with ref.

(** JS [a !== b] on objects. *)
Definition ref_neqb (a b : ref) : bool := negb (Pos.eqb a b).

Module Position.
Record t := mk { left : Q; top : Q }.
End Position.

Module Rect.
Record t := mk { left : Q; top : Q; width : Q; height : Q }.
End Rect.

Record ZIndexes := { aboveContent : Z; belowContent : Z }.

(** A [DOMHighlight] object: the component reads only its [domRange]. *)
Record DOMHighlight := { domRange : ref }.

(** The fields of a DOM [Range] that [render] passes on. *)
Record DOMRange := { endContainer : ref; endOffset : nat }.

(** ** The world outside the component *)

Record World := {
  (** JS heap: the object behind a highlight reference. *)
  highlightObj : ref -> DOMHighlight;
  (** JS heap / DOM: the object behind a range reference. *)
  rangeObj : ref -> DOMRange;
  (** Layout: the viewport rectangles covering the text of a range, as
      [getClientRectsForTextInRange] of [util.js] reports them. *)
  clientRectsForTextInRange : ref -> list Rect.t;
  (** Layout: [element.getBoundingClientRect()]. *)
  boundingClientRect : ref -> Rect.t;
  (** The global [i18n._]. *)
  i18n_ : string -> string
}.

(** Calls that leave the component. *)
Inductive Call :=
| CallGetClientRectsForTextInRange (range : ref)
| CallGetBoundingClientRect (element : ref)
| CallOnRemoveHighlight (callback : ref) (key : string).

(** ** Effects: reading the world, logging the calls made *)

Definition M (A : Type) : Type := World -> A * list Call.

Definition ret {A} (a : A) : M A := fun _ => (a, []).

Definition bind {A B} (m : M A) (k : A -> M B) : M B :=
  fun w => let (a, t1) := m w in let (b, t2) := k a w in (b, t1 ++ t2).

Notation "x <- m ;; k" := (bind m (fun x => k))
  (at level 61, m at next level, right associativity).

Definition value {A} (m : M A) (w : World) : A := fst (m w).
Definition calls {A} (m : M A) (w : World) : list Call := snd (m w).

(** ** [util.js] *)

(** Modelled from the spec: [getRelativePosition] of [util.js], which is not
    among the sources; section 4.1, toRelativePosition: "subtracts
    originRect.left/top from point.left/top". *)
Definition getRelativePosition (point : Position.t) (originRect : Rect.t) : Position.t :=
  {| Position.left := Position.left point - Rect.left originRect;
     Position.top := Position.top point - Rect.top originRect |}.

(** Modelled from the spec: [getRelativeRect] of [util.js], which is not among
    the sources; section 4.1, toRelativeRect: "same transform applied to a
    rectangle's top-left corner; width/height unchanged". *)
Definition getRelativeRect (rect originRect : Rect.t) : Rect.t :=
  {| Rect.left := Rect.left rect - Rect.left originRect;
     Rect.top := Rect.top rect - Rect.top originRect;
     Rect.width := Rect.width rect;
     Rect.height := Rect.height rect |}.

(** Modelled from the spec: [getClientRectsForTextInRange] of [util.js], which
    is not among the sources; section 4.1, rectsForRange: "returns the
    (possibly multiple) bounding rectangles covering the given content range,
    in viewport coordinates".  The rectangles are those of the layout. *)
Definition getClientRectsForTextInRange (range : ref) : M (list Rect.t) :=
  fun w => (clientRectsForTextInRange w range, [CallGetClientRectsForTextInRange range]).

(** [element.getBoundingClientRect()]. *)
Definition getBoundingClientRect (element : ref) : M Rect.t :=
  fun w => (boundingClientRect w element, [CallGetBoundingClientRect element]).

(** ** The component *)

Record HighlightRendererProps := {
  editable : bool;
  highlight : ref;
  highlightKey : string;
  mouseClientPosition : option Position.t;
  offsetParent : ref;
  onRemoveHighlight : ref;
  zIndexes : ZIndexes
}.

Record HighlightRendererState := {
  cachedHighlightRects : list Rect.t;
  tooltipIsHovered : bool
}.

(** A mounted component: [this.props] and [this.state]. *)
Record HighlightRenderer := {
  props : HighlightRendererProps;
  state : HighlightRendererState
}.

(** [this.setState({cachedHighlightRects: rects})]. *)
Definition setState_cachedHighlightRects (rects : list Rect.t)
    (this : HighlightRenderer) : HighlightRenderer :=
  {| props := props this;
     state := {| cachedHighlightRects := rects;
                 tooltipIsHovered := tooltipIsHovered (state this) |} |}.

(** [this.setState({tooltipIsHovered: b})]. *)
Definition setState_tooltipIsHovered (b : bool)
    (this : HighlightRenderer) : HighlightRenderer :=
  {| props := props this;
     state := {| cachedHighlightRects := cachedHighlightRects (state this);
                 tooltipIsHovered := b |} |}.

(** [_computeRects(props)] *)
Definition _computeRects (props : HighlightRendererProps) : M (list Rect.t) :=
  fun w =>
    (clientRects <- getClientRectsForTextInRange (domRange (highlightObj w (highlight props))) ;;
     offsetParentRect <- getBoundingClientRect (offsetParent props) ;;
     ret (map (fun rect => getRelativeRect rect offsetParentRect) clientRects)) w.

(** [_rectIsHovered(rect, mouseOffsetPosition)] *)
Definition _rectIsHovered (rect : Rect.t) (mouseOffsetPosition : Position.t) : bool :=
  let positionWithinRect := getRelativePosition mouseOffsetPosition rect in
  Qle_bool 0 (Position.left positionWithinRect) &&
  Qltb (Position.left positionWithinRect) (Rect.width rect) &&
  Qle_bool 0 (Position.top positionWithinRect) &&
  Qltb (Position.top positionWithinRect) (Rect.height rect).

(** [_highlightIsHovered(mouseClientPosition)] *)
Definition _highlightIsHovered (this : HighlightRenderer)
    (mouseClientPosition : option Position.t) : M bool :=
  match mouseClientPosition with
  | None => ret false
  | Some mouseClientPosition =>
      offsetParentRect <- getBoundingClientRect (offsetParent (props this)) ;;
      let mouseOffsetPosition :=
        getRelativePosition mouseClientPosition offsetParentRect in
      ret (existsb (fun rect => _rectIsHovered rect mouseOffsetPosition)
             (cachedHighlightRects (state this)))
  end.

(** [_shouldShowTooltip()] *)
Definition _shouldShowTooltip (this : HighlightRenderer) : M bool :=
  if negb (editable (props this)) then ret false
  else if tooltipIsHovered (state this) then ret true
  else
    hovered <- _highlightIsHovered this (mouseClientPosition (props this)) ;;
    if hovered then ret true else ret false.

(** [this.props.onRemoveHighlight(key)]: the callback belongs to the caller;
    the component sees only that it was called. *)
Definition call_onRemoveHighlight (callback : ref) (key : string) : M unit :=
  fun _ => (tt, [CallOnRemoveHighlight callback key]).

(** [_handleRemoveHighlight()]; the result is the component afterwards. *)
Definition _handleRemoveHighlight (this : HighlightRenderer) : M HighlightRenderer :=
  _ <- call_onRemoveHighlight (onRemoveHighlight (props this)) (highlightKey (props this)) ;;
  ret this.

(** [_handleTooltipMouseEnter()] *)
Definition _handleTooltipMouseEnter (this : HighlightRenderer) : M HighlightRenderer :=
  ret (setState_tooltipIsHovered true this).

(** [_handleTooltipMouseLeave()] *)
Definition _handleTooltipMouseLeave (this : HighlightRenderer) : M HighlightRenderer :=
  ret (setState_tooltipIsHovered false this).

(** [componentWillReceiveProps(nextProps)]: [this.props] are still the
    previous props. *)
Definition componentWillReceiveProps (this : HighlightRenderer)
    (nextProps : HighlightRendererProps) : M HighlightRenderer :=
  if ref_neqb (highlight (props this)) (highlight nextProps) ||
     ref_neqb (offsetParent (props this)) (offsetParent nextProps)
  then
    rects <- _computeRects nextProps ;;
    ret (setState_cachedHighlightRects rects this)
  else ret this.

(** The class property initialiser of [state], run when the component is
    constructed with [props]. *)
Definition construct (props : HighlightRendererProps) : M HighlightRenderer :=
  rects <- _computeRects props ;;
  ret {| props := props;
         state := {| cachedHighlightRects := rects; tooltipIsHovered := false |} |}.

(** *** [render] *)

(** The methods that [render] hands to the tooltip as event handlers. *)
Inductive Handler :=
| this_handleRemoveHighlight
| this_handleTooltipMouseEnter
| this_handleTooltipMouseLeave.

(** The inline style of one highlight rectangle. *)
Record RectStyle := {
  style_position : string;
  style_width : Q;
  style_height : Q;
  style_top : Q;
  style_left : Q;
  style_zIndex : Z
}.

(** [<div key=.. className=.. style=.. />] *)
Record RectDiv := {
  div_key : nat;
  div_className : string;
  div_style : RectStyle
}.

(** The props of [<HighlightTooltip ... />]. *)
Record HighlightTooltipProps := {
  label : string;
  onClick : Handler;
  onMouseEnter : Handler;
  onMouseLeave : Handler;
  focusNode : ref;
  focusOffset : nat;
  tooltip_offsetParent : ref;
  zIndex : Z
}.

(** The outer [<div>]: the inner [<div>] of rectangles, then the tooltip
    if there is one. *)
Record Rendered := {
  rectDivs : list RectDiv;
  tooltip : option HighlightTooltipProps
}.

(** [css(styles.highlightRect)]: the class generated for the one style. *)
Definition styles_highlightRect : string := "background:#fffabe".

(** [array.map((x, index) => f x index)] *)
Fixpoint map_index_from {A B} (f : A -> nat -> B) (index : nat) (l : list A) : list B :=
  match l with
  | [] => []
  | x :: l' => f x index :: map_index_from f (S index) l'
  end.

Definition map_index {A B} (f : A -> nat -> B) (l : list A) : list B :=
  map_index_from f 0 l.

Definition render (this : HighlightRenderer) : M Rendered :=
  fun w =>
    (let rects := cachedHighlightRects (state this) in
     let divs :=
       map_index (fun rect index =>
         {| div_key := index;
            div_className := styles_highlightRect;
            div_style :=
              {| style_position := "absolute";
                 style_width := Rect.width rect;
                 style_height := Rect.height rect;
                 style_top := Rect.top rect;
                 style_left := Rect.left rect;
                 style_zIndex := belowContent (zIndexes (props this)) |} |}) rects in
     show <- _shouldShowTooltip this ;;
     ret {| rectDivs := divs;
            tooltip :=
              if show then
                let range := rangeObj w (domRange (highlightObj w (highlight (props this)))) in
                Some {| label := i18n_ w "Remove highlight";
                        onClick := this_handleRemoveHighlight;
                        onMouseEnter := this_handleTooltipMouseEnter;
                        onMouseLeave := this_handleTooltipMouseLeave;
                        focusNode := endContainer range;
                        focusOffset := endOffset range;
                        tooltip_offsetParent := offsetParent (props this);
                        zIndex := aboveContent (zIndexes (props this)) |}
              else None |}) w.

(** ** The host framework *)

(** React delivering new props to a mounted component: it calls
    [componentWillReceiveProps] while [this.props] are the old props, applies
    the state update, and then installs [nextProps] as [this.props]. *)
Definition receiveProps (this : HighlightRenderer)
    (nextProps : HighlightRendererProps) : M HighlightRenderer :=
  this' <- componentWillReceiveProps this nextProps ;;
  ret {| props := nextProps; state := state this' |}.

(** Running a handler that [render] attached to the tooltip. *)
Definition runHandler (h : Handler) (this : HighlightRenderer) : M HighlightRenderer :=
  match h with
  | this_handleRemoveHighlight => _handleRemoveHighlight this
  | this_handleTooltipMouseEnter => _handleTooltipMouseEnter this
  | this_handleTooltipMouseLeave => _handleTooltipMouseLeave this
  end.

(** What can happen to a mounted component. *)
Inductive Notification :=
| PropsChanged (nextProps : HighlightRendererProps)
| TooltipEvent (h : Handler).

Definition deliver (n : Notification) (this : HighlightRenderer) : M HighlightRenderer :=
  match n with
  | PropsChanged nextProps => receiveProps this nextProps
  | TooltipEvent h => runHandler h this
  end.

(** Notifications are processed in delivery order; each one sees the world
    (heap and layout) as it is when it is delivered. *)
Fixpoint deliverAll (ns : list (World * Notification)) (this : HighlightRenderer)
  : HighlightRenderer * list Call :=
  match ns with
  | [] => (this, [])
  | (w, n) :: ns' =>
      let (this', t1) := deliver n this w in
      let (this'', t2) := deliverAll ns' this' in
      (this'', t1 ++ t2)
  end.

(** The life of one rendering instance: constructed in the world [w0], then
    notified. *)
Definition lifetime (w0 : World) (props0 : HighlightRendererProps)
    (ns : list (World * Notification)) : HighlightRenderer * list Call :=
  let (this, t0) := construct props0 w0 in
  let (this', t) := deliverAll ns this in
  (this', t0 ++ t).

(** ** Notions used in the statements *)



(** The rectangle and the points of the spec's scenario. *)
Definition rect_10x10 : Rect.t :=
  {| Rect.left := 0; Rect.top := 0; Rect.width := 10; Rect.height := 10 |}.

(** A rectangle of no width. *)
Definition rect_zero_width : Rect.t :=
  {| Rect.left := 3; Rect.top := 4; Rect.width := 0; Rect.height := 7 |}.

(** A cached rectangle of no area. *)
Definition degenerate (rect : Rect.t) : Prop :=
  Rect.width rect == 0 \/ Rect.height rect == 0.

(** The layout that [_computeRects props] looks at is the same in both
    worlds. *)
Definition sameLayoutFor (props : HighlightRendererProps) (w1 w2 : World) : Prop :=
  highlightObj w1 (highlight props) = highlightObj w2 (highlight props) /\
  clientRectsForTextInRange w1 (domRange (highlightObj w1 (highlight props))) =
    clientRectsForTextInRange w2 (domRange (highlightObj w2 (highlight props))) /\
  boundingClientRect w1 (offsetParent props) = boundingClientRect w2 (offsetParent props).

(** The highlight or the container of [nextProps] is another object than the
    one in [this.props]. *)
Definition identityChanged (this : HighlightRenderer)
    (nextProps : HighlightRendererProps) : Prop :=
  highlight (props this) <> highlight nextProps \/
  offsetParent (props this) <> offsetParent nextProps.


(** ** A page to try the component on *)

(** The offset parent is element 2, at (100, 200) in the viewport.  The
    highlight objects 1 and 4 both cover range 7, whose text wraps over two
    lines; the highlight object 5 covers range 8, which has no extent. *)
Definition page : World :=
  {| highlightObj := fun h => if Pos.eqb h 5 then {| domRange := 8 |} else {| domRange := 7 |};
     rangeObj := fun _ => {| endContainer := 9; endOffset := 3 |};
     clientRectsForTextInRange := fun range =>
       if Pos.eqb range 7 then
         [ {| Rect.left := 100; Rect.top := 200; Rect.width := 10; Rect.height := 10 |};
           {| Rect.left := 100; Rect.top := 210; Rect.width := 30; Rect.height := 10 |} ]
       else [];
     boundingClientRect := fun _ =>
       {| Rect.left := 100; Rect.top := 200; Rect.width := 500; Rect.height := 400 |};
     i18n_ := fun s => s |}.

(** The same page after the content has scrolled up by 50 pixels. *)
Definition page_scrolled : World :=
  {| highlightObj := highlightObj page;
     rangeObj := rangeObj page;
     clientRectsForTextInRange := fun range =>
       if Pos.eqb range 7 then
         [ {| Rect.left := 100; Rect.top := 150; Rect.width := 10; Rect.height := 10 |};
           {| Rect.left := 100; Rect.top := 160; Rect.width := 30; Rect.height := 10 |} ]
       else [];
     boundingClientRect := fun _ =>
       {| Rect.left := 100; Rect.top := 150; Rect.width := 500; Rect.height := 400 |};
     i18n_ := i18n_ page |}.

(** The same page with another translation table: the layout is as in [page]. *)
Definition page_translated : World :=
  {| highlightObj := highlightObj page;
     rangeObj := rangeObj page;
     clientRectsForTextInRange := clientRectsForTextInRange page;
     boundingClientRect := boundingClientRect page;
     i18n_ := fun _ => "Quitar resaltado"%string |}.

Definition props_at (mouse : option Position.t) : HighlightRendererProps :=
  {| editable := true;
     highlight := 1;
     highlightKey := "highlight-1";
     mouseClientPosition := mouse;
     offsetParent := 2;
     onRemoveHighlight := 3;
     zIndexes := {| aboveContent := 2; belowContent := -1 |} |}.

(** [props_at mouse] with another highlight object. *)
Definition props_of (h : ref) (mouse : option Position.t) : HighlightRendererProps :=
  {| editable := true;
     highlight := h;
     highlightKey := "highlight-1";
     mouseClientPosition := mouse;
     offsetParent := 2;
     onRemoveHighlight := 3;
     zIndexes := {| aboveContent := 2; belowContent := -1 |} |}.

(** [props_at mouse] for a read-only highlight. *)
Definition props_readonly (mouse : option Position.t) : HighlightRendererProps :=
  {| editable := false;
     highlight := 1;
     highlightKey := "highlight-1";
     mouseClientPosition := mouse;
     offsetParent := 2;
     onRemoveHighlight := 3;
     zIndexes := {| aboveContent := 2; belowContent := -1 |} |}.

Definition at_point (x y : Q) : Position.t :=
  {| Position.left := x; Position.top := y |}.

(** The component constructed on [page] with the pointer away. *)
Definition mounted : HighlightRenderer := value (construct (props_at None)) page.

(** ** Notions used in the further properties *)



(** The [<div>] that [render] draws for the cached rectangle at [index]. *)
Definition rectDivFor (this : HighlightRenderer) (rect : Rect.t) (index : nat) : RectDiv :=
  {| div_key := index;
     div_className := styles_highlightRect;
     div_style :=
       {| style_position := "absolute";
          style_width := Rect.width rect;
          style_height := Rect.height rect;
          style_top := Rect.top rect;
          style_left := Rect.left rect;
          style_zIndex := belowContent (zIndexes (props this)) |} |}.

(** Whether a rendering has the tooltip. *)
Definition tooltipShown (r : Rendered) : bool :=
  match tooltip r with Some _ => true | None => false end.

Definition isRangeMeasurement (c : Call) : bool :=
  match c with CallGetClientRectsForTextInRange _ => true | _ => false end.

Definition isContainerMeasurement (c : Call) : bool :=
  match c with CallGetBoundingClientRect _ => true | _ => false end.

Definition isRemoveRequest (c : Call) : bool :=
  match c with CallOnRemoveHighlight _ _ => true | _ => false end.

(** How many calls of a trace are of a kind. *)
Definition countCalls (kind : Call -> bool) (t : list Call) : nat :=
  List.length (filter kind t).

(** How many of the notifications bring a highlight or an offset parent that
    is another object than the one before; [h] and [o] are the objects the
    component has when the first notification arrives. *)
Fixpoint identityChanges (h o : ref) (ns : list (World * Notification)) : nat :=
  match ns with
  | [] => 0
  | (_, PropsChanged nextProps) :: ns' =>
      (if ref_neqb h (highlight nextProps) || ref_neqb o (offsetParent nextProps)
       then 1 else 0) +
      identityChanges (highlight nextProps) (offsetParent nextProps) ns'
  | (_, TooltipEvent _) :: ns' => identityChanges h o ns'
  end%nat.

(** How many of the notifications are clicks on the remove affordance. *)
Fixpoint removeClicks (ns : list (World * Notification)) : nat :=
  match ns with
  | [] => 0
  | (_, TooltipEvent this_handleRemoveHighlight) :: ns' => S (removeClicks ns')
  | _ :: ns' => removeClicks ns'
  end.

(** The tooltip-hover flag that the pointer events of [ns] leave behind,
    starting from [flag]: the last enter or leave decides. *)
Fixpoint tooltipFlagAfter (flag : bool) (ns : list (World * Notification)) : bool :=
  match ns with
  | [] => flag
  | (_, TooltipEvent this_handleTooltipMouseEnter) :: ns' => tooltipFlagAfter true ns'
  | (_, TooltipEvent this_handleTooltipMouseLeave) :: ns' => tooltipFlagAfter false ns'
  | _ :: ns' => tooltipFlagAfter flag ns'
  end.

(** The notification brings no other highlight and no other offset parent
    than [h] and [o]. *)
Definition keepsIdentity (h o : ref) (n : World * Notification) : Prop :=
  match snd n with
  | PropsChanged nextProps => highlight nextProps = h /\ offsetParent nextProps = o
  | TooltipEvent _ => True
  end.

(** [page] after the text of range 7 has reflowed onto one long line, the
    offset parent staying where it was. *)
Definition page_reflowed : World :=
  {| highlightObj := highlightObj page;
     rangeObj := rangeObj page;
     clientRectsForTextInRange := fun range =>
       if Pos.eqb range 7 then
         [ {| Rect.left := 300; Rect.top := 200; Rect.width := 40; Rect.height := 10 |} ]
       else [];
     boundingClientRect := boundingClientRect page;
     i18n_ := i18n_ page |}.

(** * Properties *)

(** ** Numbers and references *)

Lemma Qltb_lt (x y : Q) : Qltb x y = true <-> x < y.
Proof.
  unfold Qltb. rewrite negb_true_iff, <- not_true_iff_false, Qle_bool_iff.
  split; [apply Qnot_le_lt | apply Qlt_not_le].
Qed.

Lemma Qltb_ge (x y : Q) : Qltb x y = false <-> y <= x.
Proof.
  unfold Qltb. rewrite negb_false_iff. apply Qle_bool_iff.
Qed.

Lemma ref_neqb_true (a b : ref) : ref_neqb a b = true <-> a <> b.
Proof.
  unfold ref_neqb. rewrite negb_true_iff. apply Pos.eqb_neq.
Qed.

Lemma ref_neqb_false (a b : ref) : ref_neqb a b = false <-> a = b.
Proof.
  unfold ref_neqb. rewrite negb_false_iff. apply Pos.eqb_eq.
Qed.

(** ** The monad *)

Lemma value_ret {A} (a : A) w : value (ret a) w = a.
Proof. reflexivity. Qed.

Lemma calls_ret {A} (a : A) w : calls (ret a) w = [].
Proof. reflexivity. Qed.

Lemma value_bind {A B} (m : M A) (k : A -> M B) w :
  value (bind m k) w = value (k (value m w)) w.
Proof.
  unfold value, bind. destruct (m w) as [a t1]. simpl.
  destruct (k a w); reflexivity.
Qed.


(** ** Point in rectangle *)

Section PointInRect.
Variable rect : Rect.t.
Variable point : Position.t.

Lemma rectIsHovered_true :
  _rectIsHovered rect point = true <->
  0 <= Position.left point - Rect.left rect < Rect.width rect /\
  0 <= Position.top point - Rect.top rect < Rect.height rect.
Proof.
  unfold _rectIsHovered. cbn [getRelativePosition Position.left Position.top].
  rewrite !andb_true_iff, !Qle_bool_iff, !Qltb_lt. tauto.
Qed.

End PointInRect.

Lemma rectIsHovered_false_iff rect point :
  _rectIsHovered rect point = false <-> ~ _rectIsHovered rect point = true.
Proof. symmetry. apply not_true_iff_false. Qed.


Example rectIsHovered_5_5 :
  _rectIsHovered rect_10x10 {| Position.left := 5; Position.top := 5 |} = true.
Proof. reflexivity. Qed.

Example rectIsHovered_50_50 :
  _rectIsHovered rect_10x10 {| Position.left := 50; Position.top := 50 |} = false.
Proof. reflexivity. Qed.

Example rectIsHovered_right_edge :
  _rectIsHovered rect_10x10 {| Position.left := 10; Position.top := 0 |} = false.
Proof. reflexivity. Qed.

Example rectIsHovered_half_pixel :
  _rectIsHovered rect_10x10 {| Position.left := 19 # 2; Position.top := 0 |} = true.
Proof. reflexivity. Qed.

(** ** Hovering over the cached rectangles *)

Lemma highlightIsHovered_None this w :
  _highlightIsHovered this None w = (false, []).
Proof. reflexivity. Qed.

Lemma highlightIsHovered_Some this mouse w :
  _highlightIsHovered this (Some mouse) w =
  (existsb (fun rect =>
      _rectIsHovered rect
        (getRelativePosition mouse (boundingClientRect w (offsetParent (props this)))))
     (cachedHighlightRects (state this)),
   [CallGetBoundingClientRect (offsetParent (props this))]).
Proof. reflexivity. Qed.


Lemma existsb_without {A} (f : A -> bool) (pre post : list A) (x : A) :
  f x = false -> existsb f (pre ++ x :: post) = existsb f (pre ++ post).
Proof.
  intros Hx. rewrite !existsb_app. simpl. now rewrite Hx.
Qed.

Lemma rectIsHovered_degenerate rect point :
  degenerate rect -> _rectIsHovered rect point = false.
Proof.
  intros Hd. apply rectIsHovered_false_iff. rewrite rectIsHovered_true.
  intros [[H1 H2] [H3 H4]]. destruct Hd as [Hd | Hd]; rewrite Hd in *; lra.
Qed.

(** C10. A rectangle whose width is 0 or whose height is 0 is hovered by no
    point, and a cache that holds such a rectangle gives the same hover result
    as the cache without it. *)
Theorem degenerate_rect_never_hovered (rect : Rect.t) (Hd : degenerate rect) :
  (forall point, _rectIsHovered rect point = false) /\
  (forall this pre post mouse w,
     value (_highlightIsHovered
              (setState_cachedHighlightRects (pre ++ rect :: post) this) mouse) w =
     value (_highlightIsHovered
              (setState_cachedHighlightRects (pre ++ post) this) mouse) w).
Proof.
  split.
  - intros point. now apply rectIsHovered_degenerate.
  - intros this pre post [mouse|] w; [|reflexivity].
    unfold value. rewrite !highlightIsHovered_Some. cbn [fst].
    cbn [setState_cachedHighlightRects state props cachedHighlightRects].
    apply existsb_without. now apply rectIsHovered_degenerate.
Qed.

Lemma degenerate_rect_never_hovered_witness :
  degenerate rect_zero_width /\
  _rectIsHovered rect_zero_width {| Position.left := 3; Position.top := 5 |} = false.
Proof.
  assert (Hd : degenerate rect_zero_width) by (left; reflexivity).
  split; [exact Hd | apply (proj1 (degenerate_rect_never_hovered Hd))].
Defined.

(** C6. With no pointer position the hover evaluation answers false, whatever
    the cache and the container, and measures nothing; the tooltip is then
    decided by the tooltip's own hover flag alone, and when that flag is off
    nothing is shown. *)
Theorem absent_pointer_not_hovered (this : HighlightRenderer) (w : World)
    (Habsent : mouseClientPosition (props this) = None) :
  (forall this' w', _highlightIsHovered this' None w' = (false, [])) /\
  value (_shouldShowTooltip this) w =
    editable (props this) && tooltipIsHovered (state this) /\
  (tooltipIsHovered (state this) = false ->
   tooltip (value (render this) w) = None).
Proof.
  split; [reflexivity|].
  assert (Hv : value (_shouldShowTooltip this) w =
               editable (props this) && tooltipIsHovered (state this)).
  { unfold _shouldShowTooltip. rewrite Habsent.
    destruct (editable (props this)), (tooltipIsHovered (state this)); reflexivity. }
  split; [exact Hv|].
  intros Ht. unfold render, value in *. rewrite Ht, andb_false_r in Hv.
  unfold bind. destruct (_shouldShowTooltip this w) as [b t].
  cbn in Hv |- *. now rewrite Hv.
Qed.

Lemma absent_pointer_not_hovered_witness :
  mouseClientPosition (props mounted) = None /\
  value (_shouldShowTooltip mounted) page = false /\
  tooltip (value (render mounted) page) = None.
Proof.
  assert (Habsent : mouseClientPosition (props mounted) = None) by reflexivity.
  destruct (@absent_pointer_not_hovered mounted page Habsent) as (_ & Hshow & Hnone).
  split; [exact Habsent|]. split; [exact Hshow|]. apply Hnone. reflexivity.
Defined.

(** C1. [_shouldShowTooltip] is false when the highlight is not editable,
    true when it is editable and the tooltip is hovered, and otherwise the
    highlight-hover result: [editable && (tooltipIsHovered || hovered)]. *)
Theorem shouldShowTooltip_decision (this : HighlightRenderer) (w : World) :
  let hovered :=
    value (_highlightIsHovered this (mouseClientPosition (props this))) w in
  value (_shouldShowTooltip this) w =
    (if editable (props this)
     then if tooltipIsHovered (state this) then true else hovered
     else false) /\
  value (_shouldShowTooltip this) w =
    editable (props this) && (tooltipIsHovered (state this) || hovered).
Proof.
  unfold _shouldShowTooltip.
  destruct (editable (props this)), (tooltipIsHovered (state this)); cbn -[_highlightIsHovered];
    try (split; reflexivity).
  rewrite value_bind.
  destruct (value (_highlightIsHovered this (mouseClientPosition (props this))) w);
    split; reflexivity.
Qed.

(** ** Recomputing the rectangles *)

Lemma computeRects_eq props w :
  _computeRects props w =
  (map (fun rect => getRelativeRect rect (boundingClientRect w (offsetParent props)))
     (clientRectsForTextInRange w (domRange (highlightObj w (highlight props)))),
   [CallGetClientRectsForTextInRange (domRange (highlightObj w (highlight props)));
    CallGetBoundingClientRect (offsetParent props)]).
Proof. reflexivity. Qed.




(** C5. [_computeRects] asks for the rectangles of the highlight's range,
    then for the container's bounding rectangle, both in the world of the
    call, and returns the range rectangles mapped through [getRelativeRect]
    against that container rectangle: same length, same order, each
    rectangle moved by the container's corner and its size kept. *)
Theorem computeRects_composition (props : HighlightRendererProps) (w : World) :
  let clientRects :=
    clientRectsForTextInRange w (domRange (highlightObj w (highlight props))) in
  let offsetParentRect := boundingClientRect w (offsetParent props) in
  let relativeRects := value (_computeRects props) w in
  calls (_computeRects props) w =
    [CallGetClientRectsForTextInRange (domRange (highlightObj w (highlight props)));
     CallGetBoundingClientRect (offsetParent props)] /\
  relativeRects = map (fun rect => getRelativeRect rect offsetParentRect) clientRects /\
  List.length relativeRects = List.length clientRects /\
  (forall i, nth_error relativeRects i =
             option_map (fun rect => getRelativeRect rect offsetParentRect)
               (nth_error clientRects i)) /\
  (forall rect,
     Rect.left (getRelativeRect rect offsetParentRect) ==
       Rect.left rect - Rect.left offsetParentRect /\
     Rect.top (getRelativeRect rect offsetParentRect) ==
       Rect.top rect - Rect.top offsetParentRect /\
     Rect.width (getRelativeRect rect offsetParentRect) = Rect.width rect /\
     Rect.height (getRelativeRect rect offsetParentRect) = Rect.height rect).
Proof.
  cbv zeta. unfold value, calls. rewrite computeRects_eq. cbn [fst snd].
  repeat split; try reflexivity.
  - apply length_map.
  - intros i. apply nth_error_map.
Qed.

Lemma identityChanged_test this nextProps :
  ref_neqb (highlight (props this)) (highlight nextProps) ||
  ref_neqb (offsetParent (props this)) (offsetParent nextProps) = true <->
  identityChanged this nextProps.
Proof.
  unfold identityChanged. now rewrite orb_true_iff, !ref_neqb_true.
Qed.

Lemma componentWillReceiveProps_changed this nextProps w :
  identityChanged this nextProps ->
  componentWillReceiveProps this nextProps w =
  (setState_cachedHighlightRects (value (_computeRects nextProps) w) this,
   calls (_computeRects nextProps) w).
Proof.
  intros Hc. apply identityChanged_test in Hc.
  unfold componentWillReceiveProps. rewrite Hc. reflexivity.
Qed.


(** C8. Two calls of [_computeRects] for the same highlight and container,
    with the range rectangles and the container rectangle unchanged in
    between, return the same list and make the same two measurements;
    and the result owes nothing to a cache: components that recompute for
    the same new props end with the same cache whatever they had cached
    before. *)
Theorem computeRects_deterministic (props : HighlightRendererProps) (w1 w2 : World)
    (Hsame : sameLayoutFor props w1 w2) :
  _computeRects props w1 = _computeRects props w2 /\
  (forall this1 this2,
     identityChanged this1 props -> identityChanged this2 props ->
     cachedHighlightRects (state (value (componentWillReceiveProps this1 props) w1)) =
     cachedHighlightRects (state (value (componentWillReceiveProps this2 props) w2))).
Proof.
  destruct Hsame as (Hh & Hr & Hb).
  assert (He : _computeRects props w1 = _computeRects props w2).
  { rewrite !computeRects_eq. now rewrite Hr, Hb, Hh. }
  split; [exact He|].
  intros this1 this2 H1 H2. unfold value.
  rewrite (componentWillReceiveProps_changed w1 H1),
          (componentWillReceiveProps_changed w2 H2).
  cbn [fst setState_cachedHighlightRects state cachedHighlightRects].
  unfold value. now rewrite He.
Qed.

Lemma computeRects_deterministic_witness :
  sameLayoutFor (props_at None) page page_translated /\
  _computeRects (props_at None) page = _computeRects (props_at None) page_translated.
Proof.
  assert (Hsame : sameLayoutFor (props_at None) page page_translated)
    by (repeat split; reflexivity).
  split; [exact Hsame | exact (proj1 (computeRects_deterministic Hsame))].
Defined.

(** ** The cache over the life of a component *)











(** C7. When the highlight's range has no rectangles, [_computeRects]
    returns the empty list; a component whose cache is that list is hovered
    at no pointer position, and its rendering has no rectangle. *)
Theorem no_rects_no_hover_no_drawing (props0 : HighlightRendererProps) (w0 : World)
    (Hnone : clientRectsForTextInRange w0
               (domRange (highlightObj w0 (highlight props0))) = []) :
  value (_computeRects props0) w0 = [] /\
  cachedHighlightRects (state (value (construct props0) w0)) = [] /\
  (forall this,
     cachedHighlightRects (state this) = value (_computeRects props0) w0 ->
     (forall mouse w, value (_highlightIsHovered this mouse) w = false) /\
     (forall w, rectDivs (value (render this) w) = [])).
Proof.
  assert (He : value (_computeRects props0) w0 = []).
  { unfold value. rewrite computeRects_eq. cbn [fst]. now rewrite Hnone. }
  split; [exact He|]. split; [exact He|].
  intros this Hc. rewrite He in Hc. split.
  - intros [mouse|] w; [|reflexivity].
    unfold value. rewrite highlightIsHovered_Some. cbn [fst]. now rewrite Hc.
  - intros w. unfold value, render, bind.
    destruct (_shouldShowTooltip this w) as [show t]. cbn. now rewrite Hc.
Qed.

Lemma no_rects_no_hover_no_drawing_witness :
  clientRectsForTextInRange page
    (domRange (highlightObj page (highlight (props_of 5 None)))) = [] /\
  cachedHighlightRects (state (value (construct (props_of 5 None)) page)) = [] /\
  value (_highlightIsHovered (value (construct (props_of 5 None)) page)
           (Some (at_point 105 205))) page = false /\
  rectDivs (value (render (value (construct (props_of 5 None)) page)) page) = [].
Proof.
  assert (Hnone : clientRectsForTextInRange page
            (domRange (highlightObj page (highlight (props_of 5 None)))) = [])
    by reflexivity.
  destruct (no_rects_no_hover_no_drawing (props_of 5 None) page Hnone)
    as (_ & Hcache & Hthis).
  destruct (Hthis (value (construct (props_of 5 None)) page) eq_refl) as (Hhover & Hdraw).
  split; [exact Hnone|]. split; [exact Hcache|]. split; [apply Hhover | apply Hdraw].
Defined.

(** C9. Activating the remove affordance runs [_handleRemoveHighlight],
    which calls [onRemoveHighlight] once, with the [highlightKey] of the
    props, and does nothing else: props and state are as before. *)
Theorem handleRemoveHighlight_forwards_key (this : HighlightRenderer) (w : World) :
  _handleRemoveHighlight this w =
    (this, [CallOnRemoveHighlight (onRemoveHighlight (props this))
              (highlightKey (props this))]) /\
  runHandler this_handleRemoveHighlight this w = _handleRemoveHighlight this w /\
  (forall tip, tooltip (value (render this) w) = Some tip ->
     onClick tip = this_handleRemoveHighlight).
Proof.
  split; [reflexivity|]. split; [reflexivity|].
  intros tip. unfold value, render, bind.
  destruct (_shouldShowTooltip this w) as [[|] t]; cbn; [|discriminate].
  intros [= <-]. reflexivity.
Qed.

Lemma handleRemoveHighlight_forwards_key_witness :
  let this := {| props := props_at (Some (at_point 105 205)); state := state mounted |} in
  exists tip,
    tooltip (value (render this) page) = Some tip /\
    onClick tip = this_handleRemoveHighlight /\
    runHandler (onClick tip) this page = (this, [CallOnRemoveHighlight 3 "highlight-1"]).
Proof.
  intros this.
  destruct (tooltip (value (render this) page)) as [tip|] eqn:Htip; [|discriminate Htip].
  exists tip. split; [reflexivity|].
  destruct (handleRemoveHighlight_forwards_key this page) as (Hcall & Hrun & Hclick).
  rewrite (Hclick tip Htip). split; [reflexivity|].
  rewrite Hrun. exact Hcall.
Defined.

(** ** The component on the page *)

Example mounted_cache :
  cachedHighlightRects (state mounted) =
  [ {| Rect.left := 100 - 100; Rect.top := 200 - 200; Rect.width := 10; Rect.height := 10 |};
    {| Rect.left := 100 - 100; Rect.top := 210 - 200; Rect.width := 30; Rect.height := 10 |} ].
Proof. reflexivity. Qed.

Example hovered_first_line :
  _highlightIsHovered mounted (Some (at_point 105 205)) page =
  (true, [CallGetBoundingClientRect 2]).
Proof. reflexivity. Qed.

Example hovered_second_line :
  value (_highlightIsHovered mounted (Some (at_point 125 215))) page = true.
Proof. reflexivity. Qed.

Example not_hovered_outside :
  value (_highlightIsHovered mounted (Some (at_point 150 250))) page = false.
Proof. reflexivity. Qed.

(** After scrolling, without any new props, the cache is the old one but the
    pointer is converted with the container's new rectangle. *)
Example hovered_after_scroll :
  value (_highlightIsHovered mounted (Some (at_point 105 155))) page_scrolled = true /\
  value (_highlightIsHovered mounted (Some (at_point 105 205))) page_scrolled = false.
Proof. split; reflexivity. Qed.

(** Tooltip stickiness and the editable gate. *)
Example tooltip_sticky :
  let hovering := {| props := props_at (Some (at_point 105 205)); state := state mounted |} in
  let away := {| props := props_at (Some (at_point 150 250)); state := state mounted |} in
  value (_shouldShowTooltip hovering) page = true /\
  value (_shouldShowTooltip away) page = false /\
  value (_shouldShowTooltip (setState_tooltipIsHovered true away)) page = true.
Proof. repeat split; reflexivity. Qed.

Example readonly_never_shows :
  let this := {| props := props_readonly (Some (at_point 105 205));
                 state := {| cachedHighlightRects := cachedHighlightRects (state mounted);
                             tooltipIsHovered := true |} |} in
  _shouldShowTooltip this page = (false, []).
Proof. reflexivity. Qed.

(** Another highlight object with the same contents: recomputed. *)
Example same_contents_other_object :
  highlightObj page 1 = highlightObj page 4 /\
  calls (receiveProps mounted (props_of 4 None)) page =
    [CallGetClientRectsForTextInRange 7; CallGetBoundingClientRect 2].
Proof. split; reflexivity. Qed.

(** The same objects after the layout has changed: not recomputed. *)
Example same_objects_new_layout :
  receiveProps mounted (props_at (Some (at_point 105 155))) page_scrolled =
  ({| props := props_at (Some (at_point 105 155)); state := state mounted |}, []).
Proof. reflexivity. Qed.

Example rendered_mounted :
  map div_key (rectDivs (value (render mounted) page)) = [0%nat; 1%nat] /\
  tooltip (value (render mounted) page) = None.
Proof. split; reflexivity. Qed.

Example remove_clicked :
  let this := {| props := props_at (Some (at_point 105 205)); state := state mounted |} in
  option_map onClick (tooltip (value (render this) page)) = Some this_handleRemoveHighlight /\
  runHandler this_handleRemoveHighlight this page =
    (this, [CallOnRemoveHighlight 3 "highlight-1"]).
Proof. split; reflexivity. Qed.

(** * Further properties *)

(** ** Hit-testing and the geometry of the page *)






Lemma shouldShowTooltip_value this w :
  value (_shouldShowTooltip this) w =
  editable (props this) &&
  (tooltipIsHovered (state this) ||
   value (_highlightIsHovered this (mouseClientPosition (props this))) w).
Proof.
  unfold _shouldShowTooltip.
  destruct (editable (props this)), (tooltipIsHovered (state this));
    cbn -[_highlightIsHovered]; try reflexivity.
  rewrite value_bind.
  destruct (value (_highlightIsHovered this (mouseClientPosition (props this))) w);
    reflexivity.
Qed.

(** X1. A rectangle can be hovered at all exactly when its width and its
    height are positive; its top-left corner is then a hovered point.  So a
    rectangle of negative width or height is as dead as one of no area. *)
Theorem rectIsHovered_somewhere_iff_positive (rect : Rect.t) :
  ((exists point, _rectIsHovered rect point = true) <->
   0 < Rect.width rect /\ 0 < Rect.height rect) /\
  _rectIsHovered rect
    {| Position.left := Rect.left rect; Position.top := Rect.top rect |} =
  Qltb 0 (Rect.width rect) && Qltb 0 (Rect.height rect).
Proof.
  split.
  - split.
    + intros [point Hp]. apply rectIsHovered_true in Hp.
      destruct Hp as [[H1 H2] [H3 H4]]. split; lra.
    + intros [Hw Hh].
      exists {| Position.left := Rect.left rect; Position.top := Rect.top rect |}.
      apply rectIsHovered_true. cbn [Position.left Position.top].
      repeat split; lra.
  - apply eq_true_iff_eq.
    rewrite rectIsHovered_true, andb_true_iff, !Qltb_lt.
    cbn [Position.left Position.top].
    split; [intros [[H1 H2] [H3 H4]] | intros [Hw Hh]]; repeat split; lra.
Qed.





(** ** What [render] draws *)

Lemma map_index_from_length {A B} (f : A -> nat -> B) (l : list A) :
  forall k, List.length (map_index_from f k l) = List.length l.
Proof.
  induction l as [| x l IH]; intros k; simpl; [reflexivity | now rewrite IH].
Qed.

Lemma map_index_from_nth_error {A B} (f : A -> nat -> B) (l : list A) :
  forall k i,
    nth_error (map_index_from f k l) i =
    option_map (fun x => f x (k + i)%nat) (nth_error l i).
Proof.
  induction l as [| x l IH]; intros k [| i]; simpl; try reflexivity.
  - now rewrite Nat.add_0_r.
  - rewrite IH. now rewrite Nat.add_succ_r.
Qed.

Lemma map_index_from_map {A B C} (f : A -> nat -> B) (g : B -> C) (l : list A) :
  forall k, map g (map_index_from f k l) = map_index_from (fun x i => g (f x i)) k l.
Proof.
  induction l as [| x l IH]; intros k; simpl; [reflexivity | now rewrite IH].
Qed.

Lemma map_index_from_index {A} (l : list A) :
  forall k, map_index_from (fun _ i => i) k l = seq k (List.length l).
Proof.
  induction l as [| x l IH]; intros k; simpl; [reflexivity | now rewrite IH].
Qed.


Lemma render_rectDivs this w :
  rectDivs (value (render this) w) =
  map_index (rectDivFor this) (cachedHighlightRects (state this)).
Proof.
  unfold value, render, bind.
  destruct (_shouldShowTooltip this w) as [show t]. reflexivity.
Qed.

(** X4. [render] draws one rectangle per cached rectangle, in the order of
    the cache: the one at position [i] has key [i], the geometry of the
    cached rectangle at [i], absolute positioning and the below-content
    z-index.  The keys are [0 .. n-1], hence distinct.  None of this depends
    on the pointer, on the tooltip or on the layout at render time. *)
Theorem render_draws_the_cache (this : HighlightRenderer) (w : World) :
  let divs := rectDivs (value (render this) w) in
  let rects := cachedHighlightRects (state this) in
  List.length divs = List.length rects /\
  map div_key divs = seq 0 (List.length rects) /\
  NoDup (map div_key divs) /\
  (forall i, nth_error divs i = option_map (fun rect => rectDivFor this rect i) (nth_error rects i)) /\
  (forall this' w',
     cachedHighlightRects (state this') = rects ->
     belowContent (zIndexes (props this')) = belowContent (zIndexes (props this)) ->
     rectDivs (value (render this') w') = divs).
Proof.
  cbv zeta. rewrite render_rectDivs. unfold map_index.
  assert (Hkeys : map div_key
            (map_index_from (rectDivFor this) 0 (cachedHighlightRects (state this))) =
          seq 0 (List.length (cachedHighlightRects (state this)))).
  { rewrite map_index_from_map. apply map_index_from_index. }
  split; [apply map_index_from_length|].
  split; [exact Hkeys|].
  split; [rewrite Hkeys; apply seq_NoDup|].
  split; [intros i; apply map_index_from_nth_error|].
  intros this' w' Hc Hz. rewrite render_rectDivs. unfold map_index, rectDivFor.
  now rewrite Hc, Hz.
Qed.

Lemma render_draws_the_cache_witness :
  let hovering := {| props := props_readonly (Some (at_point 105 205));
                     state := state (setState_tooltipIsHovered true mounted) |} in
  rectDivs (value (render hovering) page_scrolled) = rectDivs (value (render mounted) page).
Proof.
  intros hovering.
  destruct (render_draws_the_cache mounted page) as (_ & _ & _ & _ & Hsame).
  apply Hsame; reflexivity.
Defined.



Lemma render_value_calls this w :
  tooltipShown (value (render this) w) = value (_shouldShowTooltip this) w /\
  calls (render this) w = calls (_shouldShowTooltip this) w.
Proof.
  unfold value, calls, render, bind, tooltipShown.
  destruct (_shouldShowTooltip this w) as [[|] t]; cbn; now rewrite app_nil_r.
Qed.


(** ** Over a run of notifications *)

Lemma countCalls_app kind t1 t2 :
  countCalls kind (t1 ++ t2) = (countCalls kind t1 + countCalls kind t2)%nat.
Proof. unfold countCalls. now rewrite filter_app, length_app. Qed.

Lemma deliver_PropsChanged this nextProps w :
  deliver (PropsChanged nextProps) this w =
  if ref_neqb (highlight (props this)) (highlight nextProps) ||
     ref_neqb (offsetParent (props this)) (offsetParent nextProps)
  then ({| props := nextProps;
           state := {| cachedHighlightRects := value (_computeRects nextProps) w;
                       tooltipIsHovered := tooltipIsHovered (state this) |} |},
        [CallGetClientRectsForTextInRange (domRange (highlightObj w (highlight nextProps)));
         CallGetBoundingClientRect (offsetParent nextProps)])
  else ({| props := nextProps; state := state this |}, []).
Proof.
  cbn [deliver]. unfold receiveProps, componentWillReceiveProps.
  destruct (ref_neqb (highlight (props this)) (highlight nextProps) ||
            ref_neqb (offsetParent (props this)) (offsetParent nextProps));
    reflexivity.
Qed.

Lemma deliverAll_cons w n ns this :
  deliverAll ((w, n) :: ns) this =
  (fst (deliverAll ns (fst (deliver n this w))),
   snd (deliver n this w) ++ snd (deliverAll ns (fst (deliver n this w)))).
Proof.
  cbn [deliverAll]. destruct (deliver n this w) as [this' t1]. cbn [fst snd].
  destruct (deliverAll ns this') as [this'' t2]. reflexivity.
Qed.

Lemma lifetime_eq w0 props0 ns :
  lifetime w0 props0 ns =
  (fst (deliverAll ns (value (construct props0) w0)),
   calls (construct props0) w0 ++ snd (deliverAll ns (value (construct props0) w0))).
Proof.
  unfold lifetime, value, calls. destruct (construct props0 w0) as [this t0].
  cbn [fst snd]. destruct (deliverAll ns this) as [this' t]. reflexivity.
Qed.

Lemma deliverAll_counts ns :
  forall this,
    countCalls isRangeMeasurement (snd (deliverAll ns this)) =
      identityChanges (highlight (props this)) (offsetParent (props this)) ns /\
    countCalls isContainerMeasurement (snd (deliverAll ns this)) =
      identityChanges (highlight (props this)) (offsetParent (props this)) ns /\
    countCalls isRemoveRequest (snd (deliverAll ns this)) = removeClicks ns.
Proof.
  induction ns as [| [w n] ns IH]; intros this; [repeat split; reflexivity|].
  rewrite deliverAll_cons. cbn [snd]. rewrite !countCalls_app.
  destruct n as [nextProps | h].
  - rewrite deliver_PropsChanged. cbn [identityChanges removeClicks].
    destruct (ref_neqb (highlight (props this)) (highlight nextProps) ||
              ref_neqb (offsetParent (props this)) (offsetParent nextProps));
      cbn [fst snd];
      match goal with |- context [deliverAll ns ?t] => destruct (IH t) as (H1 & H2 & H3) end;
      cbn [props] in H1, H2; rewrite H1, H2, H3; repeat split; reflexivity.
  - destruct (IH (fst (deliver (TooltipEvent h) this w))) as (H1 & H2 & H3).
    rewrite H1, H2, H3. destruct h; cbn; repeat split; reflexivity.
Qed.

(** X9. Over the whole life of a component the rectangles of the range are
    measured once at construction and once more for each notification that
    brings another highlight object or another offset parent, and never
    otherwise; these are also the only times the life-cycle code measures the
    container; and [onRemoveHighlight] is called once per click on the remove
    affordance. *)
Theorem lifetime_measurements (w0 : World) (props0 : HighlightRendererProps)
    (ns : list (World * Notification)) :
  let trace := snd (lifetime w0 props0 ns) in
  countCalls isRangeMeasurement trace =
    S (identityChanges (highlight props0) (offsetParent props0) ns) /\
  countCalls isContainerMeasurement trace =
    S (identityChanges (highlight props0) (offsetParent props0) ns) /\
  countCalls isRemoveRequest trace = removeClicks ns.
Proof.
  cbv zeta. rewrite lifetime_eq. cbn [snd]. rewrite !countCalls_app.
  destruct (deliverAll_counts ns (value (construct props0) w0)) as (H1 & H2 & H3).
  rewrite H1, H2, H3. repeat split; reflexivity.
Qed.

Lemma deliverAll_tooltipFlag ns :
  forall this,
    tooltipIsHovered (state (fst (deliverAll ns this))) =
    tooltipFlagAfter (tooltipIsHovered (state this)) ns.
Proof.
  induction ns as [| [w n] ns IH]; intros this; [reflexivity|].
  rewrite deliverAll_cons. cbn [fst]. rewrite IH.
  destruct n as [nextProps | h].
  - rewrite deliver_PropsChanged. cbn [tooltipFlagAfter].
    destruct (ref_neqb (highlight (props this)) (highlight nextProps) ||
              ref_neqb (offsetParent (props this)) (offsetParent nextProps));
      reflexivity.
  - destruct h; reflexivity.
Qed.

(** X7. The tooltip-hover flag of a component is decided by the pointer
    events on the tooltip alone: it starts false and at any time is what the
    last mouse-enter or mouse-leave made it, whatever props arrived (also a
    new highlight) and whatever was clicked in between.  Hence the tooltip is
    rendered exactly when the current props say editable and either that flag
    is on or the highlight is hovered. *)
Theorem tooltip_flag_follows_pointer_events (w0 : World)
    (props0 : HighlightRendererProps) (ns : list (World * Notification)) (w : World) :
  let this := fst (lifetime w0 props0 ns) in
  tooltipIsHovered (state this) = tooltipFlagAfter false ns /\
  tooltipShown (value (render this) w) =
    editable (props this) &&
    (tooltipFlagAfter false ns ||
     value (_highlightIsHovered this (mouseClientPosition (props this))) w).
Proof.
  cbv zeta. rewrite lifetime_eq. cbn [fst].
  assert (Hflag : tooltipIsHovered
            (state (fst (deliverAll ns (value (construct props0) w0)))) =
          tooltipFlagAfter false ns).
  { rewrite deliverAll_tooltipFlag. reflexivity. }
  split; [exact Hflag|].
  destruct (render_value_calls (fst (deliverAll ns (value (construct props0) w0))) w)
    as [Hshown _].
  rewrite Hshown, shouldShowTooltip_value, Hflag. reflexivity.
Qed.

Lemma keepsIdentity_test h o nextProps :
  highlight nextProps = h -> offsetParent nextProps = o ->
  ref_neqb h (highlight nextProps) || ref_neqb o (offsetParent nextProps) = false.
Proof.
  intros <- <-. apply orb_false_iff. split; now apply ref_neqb_false.
Qed.

(** X8. As long as the notifications bring the same highlight object and the
    same offset parent, the cache stays exactly as it is and the life-cycle
    code measures nothing, however the layout differs in the worlds in which
    they are delivered: the component never refreshes the cache on its own. *)
Theorem cache_kept_while_identity_kept (this : HighlightRenderer)
    (ns : list (World * Notification))
    (Hkeep : Forall (keepsIdentity (highlight (props this)) (offsetParent (props this))) ns) :
  let this' := fst (deliverAll ns this) in
  cachedHighlightRects (state this') = cachedHighlightRects (state this) /\
  highlight (props this') = highlight (props this) /\
  offsetParent (props this') = offsetParent (props this) /\
  countCalls isRangeMeasurement (snd (deliverAll ns this)) = 0%nat /\
  countCalls isContainerMeasurement (snd (deliverAll ns this)) = 0%nat.
Proof.
  cbv zeta. revert this Hkeep.
  induction ns as [| [w n] ns IH]; intros this Hkeep; [repeat split; reflexivity|].
  inversion Hkeep as [| x l Hn Hns]; subst x l.
  rewrite deliverAll_cons. cbn [fst snd]. rewrite !countCalls_app.
  assert (Hstep : cachedHighlightRects (state (fst (deliver n this w))) =
                    cachedHighlightRects (state this) /\
                  highlight (props (fst (deliver n this w))) = highlight (props this) /\
                  offsetParent (props (fst (deliver n this w))) = offsetParent (props this) /\
                  countCalls isRangeMeasurement (snd (deliver n this w)) = 0%nat /\
                  countCalls isContainerMeasurement (snd (deliver n this w)) = 0%nat).
  { destruct n as [nextProps | h].
    - destruct Hn as [Hh Ho]. cbn [snd] in Hh, Ho.
      rewrite deliver_PropsChanged, (@keepsIdentity_test _ _ _ Hh Ho).
      cbn [fst snd props state].
      repeat split; [exact Hh | exact Ho].
    - destruct h; repeat split; reflexivity. }
  destruct Hstep as (Hc & Hh & Ho & Hr & Hb).
  rewrite <- Hh, <- Ho in Hns.
  destruct (IH _ Hns) as (IH1 & IH2 & IH3 & IH4 & IH5).
  rewrite IH1, IH2, IH3, IH4, IH5, Hc, Hh, Ho, Hr, Hb.
  repeat split; reflexivity.
Qed.

Lemma cache_kept_while_identity_kept_witness :
  let ns := [ (page_scrolled, PropsChanged (props_readonly (Some (at_point 105 155))));
              (page_scrolled, TooltipEvent this_handleTooltipMouseEnter);
              (page_translated, PropsChanged (props_at None));
              (page, TooltipEvent this_handleRemoveHighlight) ] in
  Forall (keepsIdentity (highlight (props mounted)) (offsetParent (props mounted))) ns /\
  cachedHighlightRects (state (fst (deliverAll ns mounted))) =
    cachedHighlightRects (state mounted) /\
  snd (deliverAll ns mounted) = [CallOnRemoveHighlight 3 "highlight-1"].
Proof.
  intros ns.
  assert (Hkeep : Forall (keepsIdentity (highlight (props mounted))
                            (offsetParent (props mounted))) ns).
  { repeat constructor. }
  split; [exact Hkeep|].
  split; [exact (proj1 (cache_kept_while_identity_kept mounted Hkeep)) | reflexivity].
Defined.

Lemma rectIsHovered_same_point rect point point' :
  Position.left point == Position.left point' ->
  Position.top point == Position.top point' ->
  _rectIsHovered rect point = _rectIsHovered rect point'.
Proof.
  intros Hl Ht. apply eq_true_iff_eq. rewrite !rectIsHovered_true.
  split; intros [[H1 H2] [H3 H4]]; repeat split; lra.
Qed.

Lemma existsb_pointwise {A} (f g : A -> bool) (l : list A) :
  (forall x, f x = g x) -> existsb f l = existsb g l.
Proof.
  intros Hfg. induction l as [| x l IH]; simpl; [reflexivity | now rewrite Hfg, IH].
Qed.

(** X10. Of the layout at the time of the test, the hover test looks at the
    top-left corner of the offset parent and at nothing else: two layouts
    that agree on that corner give the same answer, wherever the highlighted
    text is in either of them, and whatever the size of the offset parent.
    (So when the text moves inside an offset parent that stays put, the
    answer is still the one for the cached rectangles.) *)
Theorem hover_sees_only_the_container_corner (this : HighlightRenderer)
    (mouse : option Position.t) (w1 w2 : World)
    (Hleft : Rect.left (boundingClientRect w1 (offsetParent (props this))) ==
             Rect.left (boundingClientRect w2 (offsetParent (props this))))
    (Htop : Rect.top (boundingClientRect w1 (offsetParent (props this))) ==
            Rect.top (boundingClientRect w2 (offsetParent (props this)))) :
  _highlightIsHovered this mouse w1 = _highlightIsHovered this mouse w2.
Proof.
  destruct mouse as [mouse|]; [|reflexivity].
  rewrite !highlightIsHovered_Some. f_equal.
  apply existsb_pointwise. intros rect. apply rectIsHovered_same_point;
    cbn [getRelativePosition Position.left Position.top]; lra.
Qed.

Lemma hover_sees_only_the_container_corner_witness :
  clientRectsForTextInRange page_reflowed 7 <> clientRectsForTextInRange page 7 /\
  _highlightIsHovered mounted (Some (at_point 105 205)) page_reflowed = 
  (true, [CallGetBoundingClientRect 2]).
Proof.
  split; [discriminate|].
  rewrite (@hover_sees_only_the_container_corner mounted (Some (at_point 105 205))
             page_reflowed page); reflexivity.
Defined.
